(** * Invariants of ui-predicate-core

    A shallow embedding of [packages/ui-predicate-core/src/invariants.js].
    Every invariant returns a settled promise: [Resolved v] or [Rejected e],
    where [e] is an object built by [new errors.K(message)].  Building an
    error object allocates a fresh reference, so invariants run in a small
    allocation-state monad [M]. *)

From stdpp Require Import base list gmap strings.
From Stdlib Require Import String Ascii.

#[local] Set Warnings "-register-all".
Open Scope string_scope.

(** ** JavaScript values handled by the invariants *)

(** The tree nodes of the dataclasses module.  Each object carries its
    reference [ref]: [===] on objects compares references. *)
Inductive predicate :=
| CompoundPredicate (ref : nat) (logic : string) (predicates : list predicate)
| ComparisonPredicate (ref : nat) (target_id operator_id : string).

Definition pred_ref (p : predicate) : nat :=
  match p with
  | CompoundPredicate r _ _ => r
  | ComparisonPredicate r _ _ => r
  end.

(** The [$_type] tag that the Predicate constructors store on each node. *)
Definition pred_dollar_type (p : predicate) : string :=
  match p with
  | CompoundPredicate _ _ _ => "CompoundPredicate"
  | ComparisonPredicate _ _ _ => "ComparisonPredicate"
  end.

(** The reference-table entries, with the fields the invariants read. *)
Record Target := { target_id : string; type_id : string }.
Record Operator := { operator_id : string }.
Record Type_ := { type_type_id : string }.

(** The class objects passed as capabilities ([CompoundPredicate],
    [ComparisonPredicate]). *)
Inductive dataclass := DCompoundPredicate | DComparisonPredicate.

Inductive value :=
| VUndefined
| VNull
| VBool (b : bool)
| VNum (n : Z)
| VStr (s : string)
| VArray (xs : list value)
| VObject (ref : nat) (fields : list (string * value))  (** a plain object literal *)
| VPred (p : predicate)                                 (** a dataclass instance *)
| VClass (c : dataclass)                                (** a class object *)
| VOption (o : option value)                            (** an [Option] wrapper *)
| VTarget (t : Target)
| VOperator (o : Operator)
| VType (t : Type_).

(** ** The error taxonomy ([errors]) *)

(** The error classes, one per kind; [errors.K] names the class. *)
Module errors.

Inductive error_kind :=
| CompoundPredicateMustHaveAtLeastOneSubPredicate
| InvalidPredicateType
| RootPredicateMustBeACompoundPredicate
| PredicateMustBeAComparisonPredicate
| AddCurrentlyOnlySupportAfterInsertion
| TargetMustReferToADefinedType
| Target_idMustReferToADefinedTarget
| Operator_idMustReferToADefinedOperator
| ForbiddenCannotRemoveRootCompoundPredicate
| ForbiddenCannotRemoveLastComparisonPredicate.

#[global] Instance error_kind_eq_dec : EqDecision error_kind.
Proof. solve_decision. Defined.

End errors.

(** An error object: [new errors.K(message)]. *)
Record error := { err_ref : nat; err_kind : errors.error_kind; err_message : option string }.

(** A settled promise. [Promise.resolve()] resolves with [undefined]. *)
Inductive outcome := Resolved (v : value) | Rejected (e : error).

(** ** Allocation-state monad *)

(** The state is the next free object reference. *)
Definition M (A : Type) : Type := nat -> A * nat.

Definition ret {A} (a : A) : M A := fun s => (a, s).
Definition bind {A B} (m : M A) (f : A -> M B) : M B :=
  fun s => let (a, s') := m s in f a s'.

Notation "x <- m ;; k" := (bind m (fun x => k)) (at level 100, m at next level, right associativity).

(** [new errors.K(message)] *)
Definition new_error (k : errors.error_kind) (msg : option string) : M error :=
  fun s => ({| err_ref := s; err_kind := k; err_message := msg |}, S s).

(** [Promise.reject(new errors.K(message))] *)
Definition reject_with (k : errors.error_kind) (msg : option string) : M outcome :=
  e <- new_error k msg ;; ret (Rejected e).

Definition resolve (v : value) : M outcome := ret (Resolved v).

(** ** Host functions used by the invariants *)

(** [Array.isArray(v)] *)
Definition Array_isArray (v : value) : bool :=
  match v with VArray _ => true | _ => false end.

(** [v.length], read only after [Array.isArray(v)] held. *)
Definition array_length (v : value) : nat :=
  match v with VArray xs => List.length xs | _ => 0 end.

(** [Object.keys(o)] of a plain object used as a map.  JavaScript lists the
    keys in insertion order; the order plays no role for [includes]. *)
Definition Object_keys (o : gmap string value) : list string :=
  (map_to_list o).*1.

(** [keys.includes(v)] on a list of strings (SameValueZero: only a string can
    equal a string). *)
Definition includes (keys : list string) (v : value) : bool :=
  match v with VStr s => bool_decide (s ∈ keys) | _ => false end.

(** [v === s] for a string literal [s]. *)
Definition strict_eq_str (v : value) (s : string) : bool :=
  match v with VStr s' => String.eqb s' s | _ => false end.

(** ramda's [is(Object, v)]: [v instanceof Object], or [v] not null with
    constructor [Object].  Primitives and [null]/[undefined] fail, every
    object (arrays, functions, class instances) passes. *)
Definition ramda_is_Object (v : value) : bool :=
  match v with
  | VUndefined | VNull | VBool _ | VNum _ | VStr _ => false
  | _ => true
  end.

(** [v.$_type]: an own property of a plain object, the tag stored by the
    Predicate constructors on a node, [undefined] elsewhere (the other
    records are modelled with the fields the invariants read only). *)
Definition dollar_type (v : value) : value :=
  match v with
  | VObject _ fields =>
      match list_find (fun kv => kv.1 = "$_type") fields with
      | Some (_, (_, x)) => x
      | None => VUndefined
      end
  | VPred p => VStr (pred_dollar_type p)
  | _ => VUndefined
  end.

(** [JSON.stringify(s)] for a string [s] (QuoteJSONString), over ASCII. *)
Definition dq : ascii := ascii_of_nat 34.
Definition bs : ascii := ascii_of_nat 92.

Definition hex_digit (n : nat) : ascii :=
  ascii_of_nat (if Nat.ltb n 10 then 48 + n else 87 + n)%nat.

Definition json_escape_char (c : ascii) : string :=
  let n := nat_of_ascii c in
  if Nat.eqb n 34 then String bs (String dq EmptyString)
  else if Nat.eqb n 92 then String bs (String bs EmptyString)
  else if Nat.eqb n 8 then String bs "b"
  else if Nat.eqb n 9 then String bs "t"
  else if Nat.eqb n 10 then String bs "n"
  else if Nat.eqb n 12 then String bs "f"
  else if Nat.eqb n 13 then String bs "r"
  else if Nat.ltb n 32 then
    String bs (String.append "u00" (String (hex_digit (Nat.div n 16)) (String (hex_digit (Nat.modulo n 16)) EmptyString)))
  else String c EmptyString.

Fixpoint json_quote_chars (s : string) : string :=
  match s with
  | EmptyString => EmptyString
  | String c s' => String.append (json_escape_char c) (json_quote_chars s')
  end.

Definition JSON_stringify (s : string) : string :=
  String dq (String.append (json_quote_chars s) (String dq EmptyString)).

(** ** Collaborators outside this source file *)

(** Modelled from the spec: the variant checks [CompoundPredicate.is] and
    [ComparisonPredicate.is] of the dataclasses module, "is this node of
    variant V" (spec, section 6). *)
Definition dataclass_is (C : dataclass) (v : value) : bool :=
  match C, v with
  | DCompoundPredicate, VPred (CompoundPredicate _ _ _) => true
  | DComparisonPredicate, VPred (ComparisonPredicate _ _ _) => true
  | _, _ => false
  end.

(** [node === v] for a tree node [node]: [v] is that very object. *)
Definition is_node_object (node : predicate) (v : value) : bool :=
  match v with
  | VPred q => Nat.eqb (pred_ref q) (pred_ref node)
  | _ => false
  end.

Module rules.

(** Modelled from the spec: [predicateToRemoveIsRootPredicate(root, candidate)]
    of the rules module, true iff [candidate] is reference-identical to
    [root] (spec, section 4.2). *)
Definition predicateToRemoveIsRootPredicate (root : predicate) (candidate : value) : bool :=
  is_node_object root candidate.

(** Modelled from the spec:
    [predicateToRemoveIsTheLastComparisonPredicate(root, CompoundPredicate,
    ComparisonPredicate)] of the rules module, in the shape of its call in
    invariants.js: it receives no candidate, only [root] and the two variant
    checks, and counts the ComparisonPredicate leaves by a full traversal of
    [root] (spec, section 4.2).  Removing a leaf leaves zero leaves exactly
    when [root] has one, so the rule holds when the count is one.  The
    traversal descends into the nodes the [CompoundPredicate] check accepts and
    counts the nodes the [ComparisonPredicate] check accepts. *)
Fixpoint count_comparisons (Compound Comparison : dataclass) (p : predicate) : nat :=
  (if dataclass_is Comparison (VPred p) then 1 else 0)
  + (if dataclass_is Compound (VPred p)
     then match p with
          | CompoundPredicate _ _ ps => list_sum (map (count_comparisons Compound Comparison) ps)
          | ComparisonPredicate _ _ _ => 0
          end
     else 0).

Definition predicateToRemoveIsTheLastComparisonPredicate (root : predicate)
    (Compound Comparison : dataclass) : bool :=
  Nat.eqb (count_comparisons Compound Comparison root) 1.

End rules.

(** ** The spec's reading of removal *)

(** Following the spec's words (section 4.2), for comparison with the rule:
    the ComparisonPredicate leaves reachable from [p] once the subtree of
    [candidate] is removed. *)
Fixpoint comparisons_left (candidate : value) (p : predicate) : nat :=
  if is_node_object p candidate then 0
  else match p with
       | ComparisonPredicate _ _ _ => 1
       | CompoundPredicate _ _ ps => list_sum (map (comparisons_left candidate) ps)
       end.





(** Nested induction on predicate trees. *)
Section predicate_nested_ind.
Variable P : predicate -> Prop.
Hypothesis Hcompound : forall r l ps, Forall P ps -> P (CompoundPredicate r l ps).
Hypothesis Hcomparison : forall r t o, P (ComparisonPredicate r t o).

End predicate_nested_ind.

(** ** The invariants ([module.exports] of invariants.js) *)

Module invariants.

Definition CompoundPredicateMustHaveAtLeastOneSubPredicate (predicates : value) : M outcome :=
  if negb (Array_isArray predicates) || Nat.eqb (array_length predicates) 0
  then reject_with errors.CompoundPredicateMustHaveAtLeastOneSubPredicate None
  else resolve VUndefined.

Definition PredicateTypeMustBeValid (type : value) (acceptedTypes : gmap string value) : M outcome :=
  if negb (includes (Object_keys acceptedTypes) type)
  then reject_with errors.InvalidPredicateType None
  else resolve VUndefined.

Definition RootPredicateMustBeACompoundPredicate (root : value) (CompoundPredicate : dataclass) : M outcome :=
  if negb (dataclass_is CompoundPredicate root)
  then reject_with errors.RootPredicateMustBeACompoundPredicate None
  else resolve root.

Definition PredicateMustBeAComparisonPredicate (root : value) : M outcome :=
  if negb (ramda_is_Object root) || negb (strict_eq_str (dollar_type root) "ComparisonPredicate")
  then reject_with errors.PredicateMustBeAComparisonPredicate None
  else resolve VUndefined.

Definition AddOnlySupportsAfter (how : value) : M outcome :=
  if negb (strict_eq_str how "after")
  then reject_with errors.AddCurrentlyOnlySupportAfterInsertion None
  else resolve VUndefined.

(** The message of [TargetMustReferToADefinedType]. *)
Definition undefined_type_message (target : Target) : string :=
  String.append "target "
    (String.append (JSON_stringify (target_id target))
      (String.append " does not refer to a defined type, target.type_id="
        (JSON_stringify (type_id target)))).

Definition TargetMustReferToADefinedType (type : option Type_) (target : Target) : M outcome :=
  match type with
  | None => reject_with errors.TargetMustReferToADefinedType (Some (undefined_type_message target))
  | Some ty => resolve (VType ty)
  end.

(** Resolves with [target], the [Option] object itself. *)
Definition Target_idMustReferToADefinedTarget (target : option Target) : M outcome :=
  match target with
  | None => reject_with errors.Target_idMustReferToADefinedTarget None
  | Some _ => resolve (VOption (VTarget <$> target))
  end.

(** Resolves with [operator], the [Option] object itself. *)
Definition Operator_idMustReferToADefinedOperator (operator : option Operator) : M outcome :=
  match operator with
  | None => reject_with errors.Operator_idMustReferToADefinedOperator None
  | Some _ => resolve (VOption (VOperator <$> operator))
  end.

Definition RemovePredicateMustDifferFromRootPredicate (root : predicate) (predicateToRemove : value) : M outcome :=
  if rules.predicateToRemoveIsRootPredicate root predicateToRemove
  then reject_with errors.ForbiddenCannotRemoveRootCompoundPredicate None
  else resolve predicateToRemove.

(** The rule is called as [(root, CompoundPredicate, ComparisonPredicate)]:
    the candidate is not passed to it. *)
Definition RemovePredicateCannotBeTheLastComparisonPredicate (root : predicate) (predicateToRemove : value)
    (CompoundPredicate ComparisonPredicate : dataclass) : M outcome :=
  if dataclass_is ComparisonPredicate predicateToRemove
     && rules.predicateToRemoveIsTheLastComparisonPredicate root CompoundPredicate ComparisonPredicate
  then reject_with errors.ForbiddenCannotRemoveLastComparisonPredicate None
  else resolve VUndefined.

End invariants.

(** ** The ten invariants as one interface *)

Inductive invariant :=
| ICompoundPredicateMustHaveAtLeastOneSubPredicate
| IPredicateTypeMustBeValid
| IRootPredicateMustBeACompoundPredicate
| IPredicateMustBeAComparisonPredicate
| IAddOnlySupportsAfter
| ITargetMustReferToADefinedType
| ITarget_idMustReferToADefinedTarget
| IOperator_idMustReferToADefinedOperator
| IRemovePredicateMustDifferFromRootPredicate
| IRemovePredicateCannotBeTheLastComparisonPredicate.

#[global] Instance invariant_eq_dec : EqDecision invariant.
Proof. solve_decision. Defined.

(** One call of an invariant, with its arguments. *)
Inductive call :=
| CallCompoundPredicateMustHaveAtLeastOneSubPredicate (predicates : value)
| CallPredicateTypeMustBeValid (type : value) (acceptedTypes : gmap string value)
| CallRootPredicateMustBeACompoundPredicate (root : value) (CompoundPredicate : dataclass)
| CallPredicateMustBeAComparisonPredicate (root : value)
| CallAddOnlySupportsAfter (how : value)
| CallTargetMustReferToADefinedType (type : option Type_) (target : Target)
| CallTarget_idMustReferToADefinedTarget (target : option Target)
| CallOperator_idMustReferToADefinedOperator (operator : option Operator)
| CallRemovePredicateMustDifferFromRootPredicate (root : predicate) (predicateToRemove : value)
| CallRemovePredicateCannotBeTheLastComparisonPredicate (root : predicate) (predicateToRemove : value)
    (CompoundPredicate ComparisonPredicate : dataclass).

Definition call_invariant (c : call) : invariant :=
  match c with
  | CallCompoundPredicateMustHaveAtLeastOneSubPredicate _ => ICompoundPredicateMustHaveAtLeastOneSubPredicate
  | CallPredicateTypeMustBeValid _ _ => IPredicateTypeMustBeValid
  | CallRootPredicateMustBeACompoundPredicate _ _ => IRootPredicateMustBeACompoundPredicate
  | CallPredicateMustBeAComparisonPredicate _ => IPredicateMustBeAComparisonPredicate
  | CallAddOnlySupportsAfter _ => IAddOnlySupportsAfter
  | CallTargetMustReferToADefinedType _ _ => ITargetMustReferToADefinedType
  | CallTarget_idMustReferToADefinedTarget _ => ITarget_idMustReferToADefinedTarget
  | CallOperator_idMustReferToADefinedOperator _ => IOperator_idMustReferToADefinedOperator
  | CallRemovePredicateMustDifferFromRootPredicate _ _ => IRemovePredicateMustDifferFromRootPredicate
  | CallRemovePredicateCannotBeTheLastComparisonPredicate _ _ _ _ => IRemovePredicateCannotBeTheLastComparisonPredicate
  end.

Definition run (c : call) : M outcome :=
  match c with
  | CallCompoundPredicateMustHaveAtLeastOneSubPredicate ps =>
      invariants.CompoundPredicateMustHaveAtLeastOneSubPredicate ps
  | CallPredicateTypeMustBeValid t a => invariants.PredicateTypeMustBeValid t a
  | CallRootPredicateMustBeACompoundPredicate r C => invariants.RootPredicateMustBeACompoundPredicate r C
  | CallPredicateMustBeAComparisonPredicate r => invariants.PredicateMustBeAComparisonPredicate r
  | CallAddOnlySupportsAfter h => invariants.AddOnlySupportsAfter h
  | CallTargetMustReferToADefinedType ty t => invariants.TargetMustReferToADefinedType ty t
  | CallTarget_idMustReferToADefinedTarget t => invariants.Target_idMustReferToADefinedTarget t
  | CallOperator_idMustReferToADefinedOperator o => invariants.Operator_idMustReferToADefinedOperator o
  | CallRemovePredicateMustDifferFromRootPredicate r p => invariants.RemovePredicateMustDifferFromRootPredicate r p
  | CallRemovePredicateCannotBeTheLastComparisonPredicate r p C1 C2 =>
      invariants.RemovePredicateCannotBeTheLastComparisonPredicate r p C1 C2
  end.

(** The error kind each invariant's rejection carries (spec, section 4.3). *)
Definition raised_kind (i : invariant) : errors.error_kind :=
  match i with
  | ICompoundPredicateMustHaveAtLeastOneSubPredicate => errors.CompoundPredicateMustHaveAtLeastOneSubPredicate
  | IPredicateTypeMustBeValid => errors.InvalidPredicateType
  | IRootPredicateMustBeACompoundPredicate => errors.RootPredicateMustBeACompoundPredicate
  | IPredicateMustBeAComparisonPredicate => errors.PredicateMustBeAComparisonPredicate
  | IAddOnlySupportsAfter => errors.AddCurrentlyOnlySupportAfterInsertion
  | ITargetMustReferToADefinedType => errors.TargetMustReferToADefinedType
  | ITarget_idMustReferToADefinedTarget => errors.Target_idMustReferToADefinedTarget
  | IOperator_idMustReferToADefinedOperator => errors.Operator_idMustReferToADefinedOperator
  | IRemovePredicateMustDifferFromRootPredicate => errors.ForbiddenCannotRemoveRootCompoundPredicate
  | IRemovePredicateCannotBeTheLastComparisonPredicate => errors.ForbiddenCannotRemoveLastComparisonPredicate
  end.

(** What a caller observes of a settled promise: the yielded value, or the
    error's kind and message (not the identity of the fresh error object). *)
Inductive observation := Passed (v : value) | Failed (k : errors.error_kind) (msg : option string).

Definition observe (o : outcome) : observation :=
  match o with
  | Resolved v => Passed v
  | Rejected e => Failed (err_kind e) (err_message e)
  end.

(** ** Sample trees *)

Definition leaf1 : predicate := ComparisonPredicate 1 "name" "is".
Definition leaf2 : predicate := ComparisonPredicate 2 "age" "greater_than".
Definition root_one_leaf : predicate := CompoundPredicate 0 "and" [leaf1].
Definition root_two_leaves : predicate := CompoundPredicate 0 "and" [leaf1; leaf2].

Example leaf_count_one : comparisons_left VUndefined root_one_leaf = 1.
Proof. reflexivity. Qed.

Example leaf_count_excluding : comparisons_left (VPred leaf1) root_two_leaves = 1.
Proof. reflexivity. Qed.

Example json_quote_sample :
  JSON_stringify (String "a" (String dq "b")) = String dq (String "a" (String bs (String dq (String "b" (String dq EmptyString))))).
Proof. reflexivity. Qed.

Example remove_last_sample :
  observe (fst (invariants.RemovePredicateCannotBeTheLastComparisonPredicate root_one_leaf (VPred leaf1)
         DCompoundPredicate DComparisonPredicate 0))
  = Failed errors.ForbiddenCannotRemoveLastComparisonPredicate None.
Proof. reflexivity. Qed.

(** ** Auxiliary notions *)

(** [needle] occurs in [hay]. *)
Definition contains (needle hay : string) : Prop :=
  exists pre post, hay = String.append pre (String.append needle post).

(** A string [JSON.stringify] leaves unescaped between its quotes. *)
Definition json_plain_char (c : ascii) : bool :=
  let n := nat_of_ascii c in
  negb (Nat.eqb n 34 || Nat.eqb n 92 || Nat.ltb n 32).

Definition json_plain (s : string) : bool :=
  forallb json_plain_char (list_ascii_of_string s).

(** Two values with the same reference are the same object. *)
Definition same_reference_same_object (v w : value) : Prop :=
  forall p q, v = VPred p -> w = VPred q -> pred_ref p = pred_ref q -> p = q.

(** A plain object that carries the ComparisonPredicate tag. *)
Definition tagged_plain_object : value := VObject 7 [("$_type", VStr "ComparisonPredicate")].

Definition sample_target : Target := {| target_id := "article.title"; type_id := "string" |}.
Definition sample_operator : Operator := {| operator_id := "is" |}.

(** ** Lemmas *)

Lemma json_escape_plain (c : ascii) :
  json_plain_char c = true -> json_escape_char c = String c EmptyString.
Proof.
  unfold json_plain_char, json_escape_char. cbn zeta.
  destruct (Nat.eqb (nat_of_ascii c) 34) eqn:E34; [discriminate|].
  destruct (Nat.eqb (nat_of_ascii c) 92) eqn:E92; [discriminate|].
  destruct (Nat.ltb (nat_of_ascii c) 32) eqn:E32; [discriminate|].
  intros _.
  repeat match goal with
  | |- context [Nat.eqb (nat_of_ascii c) ?k] =>
      let H := fresh "H" in
      destruct (Nat.eqb (nat_of_ascii c) k) eqn:H;
      [apply Nat.eqb_eq in H; apply Nat.ltb_ge in E32; lia|]
  end.
  reflexivity.
Qed.

Lemma json_quote_chars_plain (s : string) :
  json_plain s = true -> json_quote_chars s = s.
Proof.
  induction s as [|c s IH]; simpl; [reflexivity|].
  unfold json_plain. simpl. intros H. apply andb_prop in H as [Hc Hs].
  rewrite (json_escape_plain c Hc). simpl. rewrite IH; [reflexivity|exact Hs].
Qed.

Lemma string_append_String (c : ascii) (s t : string) :
  String.append (String c s) t = String c (String.append s t).
Proof. reflexivity. Qed.

Lemma string_append_Empty (t : string) : String.append EmptyString t = t.
Proof. reflexivity. Qed.

Lemma string_append_assoc (a b c : string) :
  String.append a (String.append b c) = String.append (String.append a b) c.
Proof.
  induction a as [|x a IH]; [reflexivity|].
  rewrite !string_append_String, IH. reflexivity.
Qed.

Lemma contains_JSON_stringify_plain (x m : string) :
  json_plain x = true -> contains (JSON_stringify x) m -> contains x m.
Proof.
  intros Hx [pre [post ->]]. unfold JSON_stringify.
  rewrite (json_quote_chars_plain x Hx).
  exists (String.append pre (String dq EmptyString)), (String dq post).
  rewrite <- !string_append_assoc, !string_append_String, string_append_Empty,
    <- string_append_assoc, string_append_String, string_append_Empty.
  reflexivity.
Qed.

Lemma elem_of_Object_keys (m : gmap string value) (k : string) :
  k ∈ Object_keys m <-> k ∈ dom m.
Proof.
  unfold Object_keys. rewrite list_elem_of_fmap, elem_of_dom. split.
  - intros [[k' x] [-> Hin]]. apply elem_of_map_to_list in Hin. simpl. eauto.
  - intros [x Hx]. exists (k, x). split; [reflexivity|]. by apply elem_of_map_to_list.
Qed.

Lemma includes_dom (m1 m2 : gmap string value) (v : value) :
  dom m1 = dom m2 -> includes (Object_keys m1) v = includes (Object_keys m2) v.
Proof.
  intros Hdom. destruct v; try reflexivity. simpl.
  apply bool_decide_ext. rewrite !elem_of_Object_keys, Hdom. reflexivity.
Qed.

(** ** Claims *)







(** C2 (code defect): on an absent Option, each of
    [Target_idMustReferToADefinedTarget], [Operator_idMustReferToADefinedOperator]
    and [TargetMustReferToADefinedType] rejects with its own kind; on a present
    one, [TargetMustReferToADefinedType] yields the unwrapped type, but the two
    others yield the [Option] object itself, not the unwrapped target or
    operator. *)
Lemma C2_option_invariants (t : Target) (o : Operator) (ty : Type_) (s : nat) :
  observe (fst (invariants.Target_idMustReferToADefinedTarget None s))
    = Failed errors.Target_idMustReferToADefinedTarget None
  /\ observe (fst (invariants.Operator_idMustReferToADefinedOperator None s))
    = Failed errors.Operator_idMustReferToADefinedOperator None
  /\ observe (fst (invariants.TargetMustReferToADefinedType None t s))
    = Failed errors.TargetMustReferToADefinedType (Some (invariants.undefined_type_message t))
  /\ fst (invariants.TargetMustReferToADefinedType (Some ty) t s) = Resolved (VType ty)
  /\ fst (invariants.Target_idMustReferToADefinedTarget (Some t) s) = Resolved (VOption (Some (VTarget t)))
  /\ VOption (Some (VTarget t)) <> VTarget t
  /\ fst (invariants.Operator_idMustReferToADefinedOperator (Some o) s) = Resolved (VOption (Some (VOperator o)))
  /\ VOption (Some (VOperator o)) <> VOperator o.
Proof. repeat split; discriminate. Qed.

(** C3: [RemovePredicateMustDifferFromRootPredicate(root, root)] rejects with
    [ForbiddenCannotRemoveRootCompoundPredicate]; a candidate structurally
    distinct from [root] passes and is yielded unchanged; the invariant
    rejects exactly when the rule [predicateToRemoveIsRootPredicate] holds,
    which is reference identity with [root]. *)
Theorem C3_remove_root_forbidden (root : predicate) (s : nat) :
  invariants.RemovePredicateMustDifferFromRootPredicate root (VPred root) s
    = (Rejected {| err_ref := s; err_kind := errors.ForbiddenCannotRemoveRootCompoundPredicate;
                   err_message := None |}, S s)
  /\ (forall candidate : value,
        same_reference_same_object (VPred root) candidate -> candidate <> VPred root ->
        invariants.RemovePredicateMustDifferFromRootPredicate root candidate s = (Resolved candidate, s))
  /\ (forall candidate : value,
        (exists e, fst (invariants.RemovePredicateMustDifferFromRootPredicate root candidate s) = Rejected e)
        <-> rules.predicateToRemoveIsRootPredicate root candidate = true)
  /\ (forall candidate : value,
        rules.predicateToRemoveIsRootPredicate root candidate = true
        <-> exists q, candidate = VPred q /\ pred_ref q = pred_ref root).
Proof.
  unfold invariants.RemovePredicateMustDifferFromRootPredicate, rules.predicateToRemoveIsRootPredicate.
  split; [|split; [|split]].
  - unfold is_node_object. rewrite Nat.eqb_refl. reflexivity.
  - intros candidate Hsame Hne. unfold is_node_object. destruct candidate; try reflexivity.
    destruct (Nat.eqb (pred_ref p) (pred_ref root)) eqn:E; [|reflexivity].
    apply Nat.eqb_eq in E. exfalso. apply Hne. f_equal. symmetry.
    exact (Hsame root p eq_refl eq_refl (eq_sym E)).
  - intros candidate. destruct (is_node_object root candidate); split.
    + intros _. reflexivity.
    + intros _. eexists. reflexivity.
    + intros [e He]. discriminate.
    + discriminate.
  - intros candidate. unfold is_node_object. split.
    + destruct candidate; try discriminate. intros E. apply Nat.eqb_eq in E. eauto.
    + intros [q [-> Hq]]. apply Nat.eqb_eq. exact Hq.
Qed.

Lemma C3_witness :
  same_reference_same_object (VPred root_two_leaves) (VPred leaf1)
  /\ VPred leaf1 <> VPred root_two_leaves
  /\ invariants.RemovePredicateMustDifferFromRootPredicate root_two_leaves (VPred leaf1) 0
     = (Resolved (VPred leaf1), 0).
Proof.
  assert (Hs : same_reference_same_object (VPred root_two_leaves) (VPred leaf1)).
  { intros p q Hp Hq Hr. injection Hp as <-. injection Hq as <-. simpl in Hr. discriminate Hr. }
  assert (Hne : VPred leaf1 <> VPred root_two_leaves) by discriminate.
  split; [exact Hs|split; [exact Hne|]].
  exact (proj1 (proj2 (C3_remove_root_forbidden root_two_leaves 0)) (VPred leaf1) Hs Hne).
Defined.

(** A real tree node passes [PredicateMustBeAComparisonPredicate] exactly
    when it is a ComparisonPredicate. *)
Lemma PredicateMustBeAComparisonPredicate_on_nodes (p : predicate) (s : nat) :
  observe (fst (invariants.PredicateMustBeAComparisonPredicate (VPred p) s))
  = if dataclass_is DComparisonPredicate (VPred p) then Passed VUndefined
    else Failed errors.PredicateMustBeAComparisonPredicate None.
Proof. destruct p; reflexivity. Qed.

(** C4 (code defect): a plain object carrying the tag
    [$_type: 'ComparisonPredicate'] is not a ComparisonPredicate for the
    variant check [ComparisonPredicate.is], yet
    [PredicateMustBeAComparisonPredicate] resolves on it, since it compares
    the tag instead of calling the variant check. *)
Lemma C4_tagged_plain_object_accepted :
  dataclass_is DComparisonPredicate tagged_plain_object = false
  /\ invariants.PredicateMustBeAComparisonPredicate tagged_plain_object 0 = (Resolved VUndefined, 0).
Proof. split; reflexivity. Qed.

Lemma string_append_nil (s : string) : String.append s EmptyString = s.
Proof. induction s as [|c s IH]; [reflexivity|]. rewrite string_append_String, IH. reflexivity. Qed.

(** C5: on an absent type, [TargetMustReferToADefinedType] rejects with
    [TargetMustReferToADefinedType] and a message that embeds
    [JSON.stringify(target.target_id)] and [JSON.stringify(target.type_id)]
    (so the raw ids themselves when they need no JSON escaping); on a present
    type it yields the unwrapped type. *)
Theorem C5_undefined_type_message (type : option Type_) (target : Target) (s : nat) :
  (type = None ->
     exists m,
       observe (fst (invariants.TargetMustReferToADefinedType type target s))
         = Failed errors.TargetMustReferToADefinedType (Some m)
       /\ contains (JSON_stringify (target_id target)) m
       /\ contains (JSON_stringify (type_id target)) m
       /\ (json_plain (target_id target) = true -> contains (target_id target) m)
       /\ (json_plain (type_id target) = true -> contains (type_id target) m))
  /\ (forall ty : Type_, type = Some ty ->
        fst (invariants.TargetMustReferToADefinedType type target s) = Resolved (VType ty)).
Proof.
  split.
  - intros ->. exists (invariants.undefined_type_message target).
    assert (Htid : contains (JSON_stringify (target_id target)) (invariants.undefined_type_message target)).
    { exists "target ", (String.append " does not refer to a defined type, target.type_id="
                           (JSON_stringify (type_id target))).
      reflexivity. }
    assert (Htyid : contains (JSON_stringify (type_id target)) (invariants.undefined_type_message target)).
    { exists (String.append "target " (String.append (JSON_stringify (target_id target))
                " does not refer to a defined type, target.type_id=")), EmptyString.
      unfold invariants.undefined_type_message.
      rewrite string_append_nil, <- !string_append_assoc. reflexivity. }
    split; [reflexivity|]. split; [exact Htid|]. split; [exact Htyid|]. split.
    + intros Hp. exact (contains_JSON_stringify_plain _ _ Hp Htid).
    + intros Hp. exact (contains_JSON_stringify_plain _ _ Hp Htyid).
  - intros ty ->. reflexivity.
Qed.

Lemma C5_witness :
  exists m,
    observe (fst (invariants.TargetMustReferToADefinedType None sample_target 0))
      = Failed errors.TargetMustReferToADefinedType (Some m)
    /\ contains (target_id sample_target) m /\ contains (type_id sample_target) m.
Proof.
  destruct (proj1 (C5_undefined_type_message None sample_target 0) eq_refl)
    as [m [Hobs [_ [_ [Htid Htyid]]]]].
  exists m. split; [exact Hobs|]. split; [apply Htid | apply Htyid]; reflexivity.
Defined.

Lemma reject_with_kind (k : errors.error_kind) (msg : option string) (s : nat) (e : error) :
  fst (reject_with k msg s) = Rejected e -> err_kind e = k.
Proof. intros H. injection H as <-. reflexivity. Qed.

Lemma resolve_not_rejected (v : value) (s : nat) (e : error) :
  fst (resolve v s) <> Rejected e.
Proof. discriminate. Qed.

(** C6: every rejection of an invariant carries the one kind [raised_kind]
    assigns to it; no two invariants share a kind; every kind of the taxonomy
    is raised by some invariant; and every invariant can reject. *)
Theorem C6_error_mapping_one_to_one :
  (forall (c : call) (s : nat) (e : error),
      fst (run c s) = Rejected e -> err_kind e = raised_kind (call_invariant c))
  /\ (forall i j : invariant, raised_kind i = raised_kind j -> i = j)
  /\ (forall k : errors.error_kind, exists i, raised_kind i = k)
  /\ (forall i : invariant, exists c, call_invariant c = i /\ exists e, fst (run c 0) = Rejected e).
Proof.
  split; [|split; [|split]].
  - intros c s e H. destruct c; cbn [run call_invariant raised_kind] in *;
      unfold invariants.CompoundPredicateMustHaveAtLeastOneSubPredicate,
        invariants.PredicateTypeMustBeValid, invariants.RootPredicateMustBeACompoundPredicate,
        invariants.PredicateMustBeAComparisonPredicate, invariants.AddOnlySupportsAfter,
        invariants.TargetMustReferToADefinedType, invariants.Target_idMustReferToADefinedTarget,
        invariants.Operator_idMustReferToADefinedOperator,
        invariants.RemovePredicateMustDifferFromRootPredicate,
        invariants.RemovePredicateCannotBeTheLastComparisonPredicate in H;
      repeat case_match;
      first [ exact (reject_with_kind _ _ _ _ H) | exfalso; exact (resolve_not_rejected _ _ _ H) ].
  - intros i j H. destruct i, j; try reflexivity; discriminate H.
  - intros k. destruct k.
    + exists ICompoundPredicateMustHaveAtLeastOneSubPredicate. reflexivity.
    + exists IPredicateTypeMustBeValid. reflexivity.
    + exists IRootPredicateMustBeACompoundPredicate. reflexivity.
    + exists IPredicateMustBeAComparisonPredicate. reflexivity.
    + exists IAddOnlySupportsAfter. reflexivity.
    + exists ITargetMustReferToADefinedType. reflexivity.
    + exists ITarget_idMustReferToADefinedTarget. reflexivity.
    + exists IOperator_idMustReferToADefinedOperator. reflexivity.
    + exists IRemovePredicateMustDifferFromRootPredicate. reflexivity.
    + exists IRemovePredicateCannotBeTheLastComparisonPredicate. reflexivity.
  - intros i. destruct i.
    + exists (CallCompoundPredicateMustHaveAtLeastOneSubPredicate VNull).
      split; [reflexivity | eexists; reflexivity].
    + exists (CallPredicateTypeMustBeValid (VStr "and") ∅).
      split; [reflexivity | eexists; reflexivity].
    + exists (CallRootPredicateMustBeACompoundPredicate VNull DCompoundPredicate).
      split; [reflexivity | eexists; reflexivity].
    + exists (CallPredicateMustBeAComparisonPredicate VNull).
      split; [reflexivity | eexists; reflexivity].
    + exists (CallAddOnlySupportsAfter (VStr "before")).
      split; [reflexivity | eexists; reflexivity].
    + exists (CallTargetMustReferToADefinedType None sample_target).
      split; [reflexivity | eexists; reflexivity].
    + exists (CallTarget_idMustReferToADefinedTarget None).
      split; [reflexivity | eexists; reflexivity].
    + exists (CallOperator_idMustReferToADefinedOperator None).
      split; [reflexivity | eexists; reflexivity].
    + exists (CallRemovePredicateMustDifferFromRootPredicate root_one_leaf (VPred root_one_leaf)).
      split; [reflexivity | eexists; reflexivity].
    + exists (CallRemovePredicateCannotBeTheLastComparisonPredicate root_one_leaf
                (VPred leaf1) DCompoundPredicate DComparisonPredicate).
      split; [reflexivity | eexists; reflexivity].
Qed.

Lemma C6_witness :
  exists e, fst (run (CallAddOnlySupportsAfter (VStr "before")) 0) = Rejected e
            /\ err_kind e = errors.AddCurrentlyOnlySupportAfterInsertion.
Proof.
  eexists. split; [reflexivity|].
  apply (proj1 C6_error_mapping_one_to_one (CallAddOnlySupportsAfter (VStr "before")) 0).
  reflexivity.
Defined.

(** C7: two runs of any invariant on the same arguments, from any two
    allocation states, settle alike: same pass or fail, same yielded value,
    same error kind and message. *)
Theorem C7_invariants_deterministic (c : call) (s1 s2 : nat) :
  observe (fst (run c s1)) = observe (fst (run c s2)).
Proof.
  destruct c; cbn [run];
    unfold invariants.CompoundPredicateMustHaveAtLeastOneSubPredicate,
      invariants.PredicateTypeMustBeValid, invariants.RootPredicateMustBeACompoundPredicate,
      invariants.PredicateMustBeAComparisonPredicate, invariants.AddOnlySupportsAfter,
      invariants.TargetMustReferToADefinedType, invariants.Target_idMustReferToADefinedTarget,
      invariants.Operator_idMustReferToADefinedOperator,
      invariants.RemovePredicateMustDifferFromRootPredicate,
      invariants.RemovePredicateCannotBeTheLastComparisonPredicate;
    repeat case_match; reflexivity.
Qed.

(** C8: [CompoundPredicateMustHaveAtLeastOneSubPredicate] resolves on every
    non-empty array and rejects with its kind on the empty array and on every
    value that is not an array. *)
Theorem C8_at_least_one_sub_predicate (s : nat) :
  (forall (p : value) (ps : list value),
     invariants.CompoundPredicateMustHaveAtLeastOneSubPredicate (VArray (p :: ps)) s = (Resolved VUndefined, s))
  /\ observe (fst (invariants.CompoundPredicateMustHaveAtLeastOneSubPredicate (VArray []) s))
       = Failed errors.CompoundPredicateMustHaveAtLeastOneSubPredicate None
  /\ (forall v : value, (forall xs, v <> VArray xs) ->
        observe (fst (invariants.CompoundPredicateMustHaveAtLeastOneSubPredicate v s))
        = Failed errors.CompoundPredicateMustHaveAtLeastOneSubPredicate None).
Proof.
  split; [|split].
  - intros p ps. reflexivity.
  - reflexivity.
  - intros v Hv. destruct v; try reflexivity. exfalso. exact (Hv xs eq_refl).
Qed.

Lemma C8_witness :
  observe (fst (invariants.CompoundPredicateMustHaveAtLeastOneSubPredicate VNull 0))
  = Failed errors.CompoundPredicateMustHaveAtLeastOneSubPredicate None.
Proof.
  apply (proj2 (proj2 (C8_at_least_one_sub_predicate 0)) VNull).
  intros xs. discriminate.
Defined.

(** C9: for two candidates that both pass the supplied ComparisonPredicate
    check, [RemovePredicateCannotBeTheLastComparisonPredicate] gives the same
    result: the candidate is never handed to the rule. *)
Theorem C9_candidate_irrelevant (root : predicate) (c1 c2 : value)
    (CompoundPredicate ComparisonPredicate : dataclass) (s : nat) :
  dataclass_is ComparisonPredicate c1 = true ->
  dataclass_is ComparisonPredicate c2 = true ->
  invariants.RemovePredicateCannotBeTheLastComparisonPredicate root c1 CompoundPredicate ComparisonPredicate s
  = invariants.RemovePredicateCannotBeTheLastComparisonPredicate root c2 CompoundPredicate ComparisonPredicate s.
Proof.
  intros H1 H2. unfold invariants.RemovePredicateCannotBeTheLastComparisonPredicate.
  rewrite H1, H2. reflexivity.
Qed.

Lemma C9_witness :
  invariants.RemovePredicateCannotBeTheLastComparisonPredicate root_two_leaves (VPred leaf1)
    DCompoundPredicate DComparisonPredicate 0
  = invariants.RemovePredicateCannotBeTheLastComparisonPredicate root_two_leaves (VPred leaf2)
    DCompoundPredicate DComparisonPredicate 0.
Proof. apply C9_candidate_irrelevant; reflexivity. Defined.

(** C10: [PredicateTypeMustBeValid] reads only the keys of the accepted-types
    map: two maps with the same keys give the same result for every tag. *)
Theorem C10_accepted_types_keys_only (type : value) (m1 m2 : gmap string value) (s : nat) :
  dom m1 = dom m2 ->
  invariants.PredicateTypeMustBeValid type m1 s = invariants.PredicateTypeMustBeValid type m2 s.
Proof.
  intros H. unfold invariants.PredicateTypeMustBeValid.
  rewrite (includes_dom m1 m2 type H). reflexivity.
Qed.

Lemma C10_witness :
  dom (<["and" := VBool true]> (∅ : gmap string value)) = dom (<["and" := VNum 0]> (∅ : gmap string value))
  /\ invariants.PredicateTypeMustBeValid (VStr "and") (<["and" := VBool true]> ∅) 0
     = invariants.PredicateTypeMustBeValid (VStr "and") (<["and" := VNum 0]> ∅) 0.
Proof.
  assert (H : dom (<["and" := VBool true]> (∅ : gmap string value))
              = dom (<["and" := VNum 0]> (∅ : gmap string value))).
  { rewrite !dom_insert_L. reflexivity. }
  split; [exact H|]. apply C10_accepted_types_keys_only. exact H.
Defined.

(** ** Further properties of the invariants *)

Lemma strict_eq_str_true (v : value) (s : string) :
  strict_eq_str v s = true <-> v = VStr s.
Proof.
  destruct v; simpl; split; try discriminate.
  - intros H. apply String.eqb_eq in H. subst. reflexivity.
  - intros H. injection H as ->. apply String.eqb_refl.
Qed.

(** [AddOnlySupportsAfter] resolves exactly on the string ["after"]; any
    other value, a string or not, is rejected. *)
Theorem AddOnlySupportsAfter_passes_iff (how : value) (s : nat) :
  fst (invariants.AddOnlySupportsAfter how s) = Resolved VUndefined <-> how = VStr "after".
Proof.
  unfold invariants.AddOnlySupportsAfter.
  destruct (strict_eq_str how "after") eqn:E; simpl.
  - apply strict_eq_str_true in E. split; [intros _; exact E | reflexivity].
  - split; [discriminate|]. intros H. apply strict_eq_str_true in H. congruence.
Qed.

Lemma AddOnlySupportsAfter_witness :
  fst (invariants.AddOnlySupportsAfter (VStr "after") 0) = Resolved VUndefined.
Proof. apply (proj2 (AddOnlySupportsAfter_passes_iff (VStr "after") 0)). reflexivity. Defined.

(** [PredicateTypeMustBeValid] resolves exactly when the tag is a string key
    of the accepted-types map; a non-string tag (such as the number 1 against
    the key "1") is always rejected. *)
Theorem PredicateTypeMustBeValid_passes_iff (type : value) (acceptedTypes : gmap string value) (s : nat) :
  fst (invariants.PredicateTypeMustBeValid type acceptedTypes s) = Resolved VUndefined
  <-> exists k, type = VStr k /\ k ∈ dom acceptedTypes.
Proof.
  unfold invariants.PredicateTypeMustBeValid.
  destruct (includes (Object_keys acceptedTypes) type) eqn:E; simpl.
  - split; [intros _|reflexivity].
    destruct type; try discriminate. simpl in E. apply bool_decide_eq_true in E.
    exists s0. split; [reflexivity|]. apply elem_of_Object_keys. exact E.
  - split; [discriminate|]. intros [k [-> Hk]]. simpl in E.
    apply bool_decide_eq_false in E. exfalso. apply E. apply elem_of_Object_keys. exact Hk.
Qed.

Lemma PredicateTypeMustBeValid_witness :
  fst (invariants.PredicateTypeMustBeValid (VStr "and") (<["and" := VBool true]> ∅) 0) = Resolved VUndefined
  /\ fst (invariants.PredicateTypeMustBeValid (VNum 1) (<["1" := VBool true]> ∅) 0) <> Resolved VUndefined.
Proof.
  split.
  - apply (proj2 (PredicateTypeMustBeValid_passes_iff (VStr "and") (<["and" := VBool true]> ∅) 0)).
    exists "and". split; [reflexivity|]. rewrite dom_insert_L. set_solver.
  - intros H. apply (proj1 (PredicateTypeMustBeValid_passes_iff _ _ 0)) in H.
    destruct H as [k [Hk _]]. discriminate Hk.
Defined.

(** [PredicateMustBeAComparisonPredicate] resolves exactly on a
    ComparisonPredicate node and on a plain object whose [$_type] property is
    the string ["ComparisonPredicate"]; primitives, arrays, class objects,
    Options and CompoundPredicate nodes are rejected. *)
Theorem PredicateMustBeAComparisonPredicate_passes_iff (v : value) (s : nat) :
  fst (invariants.PredicateMustBeAComparisonPredicate v s) = Resolved VUndefined
  <-> (exists r t o, v = VPred (ComparisonPredicate r t o))
      \/ (exists ref fields, v = VObject ref fields /\ dollar_type v = VStr "ComparisonPredicate").
Proof.
  unfold invariants.PredicateMustBeAComparisonPredicate.
  destruct v as [| | | | | |ref fields|[r l ps|r t o]| | | | |];
    try (simpl; split; [discriminate|];
         intros [[r' [t' [o' H]]]|[ref' [fields' [H _]]]]; discriminate H).
  - (* plain object *)
    change (ramda_is_Object (VObject ref fields)) with true. simpl negb. rewrite orb_false_l.
    destruct (strict_eq_str (dollar_type (VObject ref fields)) "ComparisonPredicate") eqn:E; simpl.
    + apply strict_eq_str_true in E. split; [intros _; right; eauto | reflexivity].
    + split; [discriminate|]. intros [[r' [t' [o' H]]]|[ref' [fields' [_ H]]]]; [discriminate H|].
      apply strict_eq_str_true in H. simpl in H, E. congruence.
  - simpl. split; [intros _; left; eauto | reflexivity].
Qed.

Lemma PredicateMustBeAComparisonPredicate_witness :
  fst (invariants.PredicateMustBeAComparisonPredicate (VPred leaf1) 0) = Resolved VUndefined.
Proof.
  apply (proj2 (PredicateMustBeAComparisonPredicate_passes_iff (VPred leaf1) 0)).
  left. exists 1, "name", "is". reflexivity.
Defined.

Ltac unfold_invariants :=
  unfold invariants.CompoundPredicateMustHaveAtLeastOneSubPredicate,
    invariants.PredicateTypeMustBeValid, invariants.RootPredicateMustBeACompoundPredicate,
    invariants.PredicateMustBeAComparisonPredicate, invariants.AddOnlySupportsAfter,
    invariants.TargetMustReferToADefinedType, invariants.Target_idMustReferToADefinedTarget,
    invariants.Operator_idMustReferToADefinedOperator,
    invariants.RemovePredicateMustDifferFromRootPredicate,
    invariants.RemovePredicateCannotBeTheLastComparisonPredicate in *.

(** A passing invariant allocates nothing; a failing one allocates exactly one
    error object, the next fresh reference. *)
Theorem run_allocates_only_on_failure (c : call) (s : nat) :
  (exists v, run c s = (Resolved v, s))
  \/ (exists e, run c s = (Rejected e, S s) /\ err_ref e = s).
Proof.
  destruct c; cbn [run]; unfold_invariants; repeat case_match;
    first [ left; eexists; reflexivity | right; eexists; split; reflexivity ].
Qed.

(** Two failing runs, the second from the state the first left, reject with
    two distinct error objects. *)
Theorem consecutive_failures_distinct_errors (c1 c2 : call) (s : nat) (e1 e2 : error) :
  fst (run c1 s) = Rejected e1 ->
  fst (run c2 (snd (run c1 s))) = Rejected e2 ->
  err_ref e1 <> err_ref e2.
Proof.
  intros H1 H2.
  destruct (run_allocates_only_on_failure c1 s) as [[v Hv]|[e [Hrun Hr]]].
  { rewrite Hv in H1. discriminate H1. }
  rewrite Hrun in H1, H2. simpl in H1, H2. injection H1 as <-.
  destruct (run_allocates_only_on_failure c2 (S s)) as [[v Hv]|[e' [Hrun' Hr']]].
  { rewrite Hv in H2. discriminate H2. }
  rewrite Hrun' in H2. simpl in H2. injection H2 as <-. lia.
Qed.

Lemma consecutive_failures_distinct_errors_witness :
  exists e1 e2,
    fst (run (CallAddOnlySupportsAfter VNull) 0) = Rejected e1
    /\ fst (run (CallTarget_idMustReferToADefinedTarget None) (snd (run (CallAddOnlySupportsAfter VNull) 0)))
       = Rejected e2
    /\ err_ref e1 <> err_ref e2.
Proof.
  eexists; eexists. split; [reflexivity|]. split; [reflexivity|].
  apply (consecutive_failures_distinct_errors (CallAddOnlySupportsAfter VNull)
           (CallTarget_idMustReferToADefinedTarget None) 0); reflexivity.
Defined.

(** Only [TargetMustReferToADefinedType] gives its error a message; every
    other invariant rejects with a message-less error. *)
Theorem rejection_message (c : call) (s : nat) (e : error) :
  fst (run c s) = Rejected e ->
  err_message e = match c with
                  | CallTargetMustReferToADefinedType _ target =>
                      Some (invariants.undefined_type_message target)
                  | _ => None
                  end.
Proof.
  intros H. destruct c; cbn [run] in *; unfold_invariants; repeat case_match;
    simpl in H; first [ discriminate H | injection H as <-; reflexivity ].
Qed.

Lemma rejection_message_witness :
  exists e, fst (run (CallOperator_idMustReferToADefinedOperator None) 0) = Rejected e /\ err_message e = None.
Proof.
  eexists. split; [reflexivity|].
  exact (rejection_message (CallOperator_idMustReferToADefinedOperator None) 0 _ eq_refl).
Defined.

(** What a passing invariant yields: its root or candidate unchanged for
    [RootPredicateMustBeACompoundPredicate] and
    [RemovePredicateMustDifferFromRootPredicate], the type for
    [TargetMustReferToADefinedType], the Option object for the target and
    operator checks, [undefined] for the five others. *)
Definition yielded_value (c : call) : value :=
  match c with
  | CallRootPredicateMustBeACompoundPredicate root _ => root
  | CallTargetMustReferToADefinedType (Some ty) _ => VType ty
  | CallTarget_idMustReferToADefinedTarget target => VOption (VTarget <$> target)
  | CallOperator_idMustReferToADefinedOperator operator => VOption (VOperator <$> operator)
  | CallRemovePredicateMustDifferFromRootPredicate _ candidate => candidate
  | _ => VUndefined
  end.

Theorem resolved_value (c : call) (s : nat) (v : value) :
  fst (run c s) = Resolved v -> v = yielded_value c.
Proof.
  intros H. destruct c; cbn [run yielded_value] in *; unfold_invariants; repeat case_match;
    simpl in H; first [ discriminate H | injection H as <-; reflexivity ].
Qed.

Lemma resolved_value_witness :
  fst (run (CallRemovePredicateMustDifferFromRootPredicate root_two_leaves (VPred leaf2)) 0)
    = Resolved (VPred leaf2)
  /\ VPred leaf2 = yielded_value (CallRemovePredicateMustDifferFromRootPredicate root_two_leaves (VPred leaf2)).
Proof.
  split; [reflexivity|]. apply (resolved_value _ 0). reflexivity.
Defined.

(** ** The diagnostic message identifies the target *)

(** A reader of the body of a JSON string literal, up to its closing quote:
    [json_unquote] on the escaped body, a closing quote [dq] and a rest
    gives back the decoded body and the rest. *)
Definition hex_value (c : ascii) : option nat :=
  let n := nat_of_ascii c in
  if Nat.leb 48 n && Nat.leb n 57 then Some (n - 48)%nat
  else if Nat.leb 97 n && Nat.leb n 102 then Some (n - 87)%nat
  else None.

Definition unescape_short (e : ascii) : option ascii :=
  let n := nat_of_ascii e in
  if Nat.eqb n 34 then Some dq
  else if Nat.eqb n 92 then Some bs
  else if Nat.eqb n 98 then Some (ascii_of_nat 8)
  else if Nat.eqb n 116 then Some (ascii_of_nat 9)
  else if Nat.eqb n 110 then Some (ascii_of_nat 10)
  else if Nat.eqb n 102 then Some (ascii_of_nat 12)
  else if Nat.eqb n 114 then Some (ascii_of_nat 13)
  else None.

Definition prepend (c : ascii) (r : string * string) : string * string :=
  (String c r.1, r.2).

Fixpoint json_unquote (s : string) : option (string * string) :=
  match s with
  | EmptyString => None
  | String c r =>
      if Ascii.eqb c dq then Some (EmptyString, r)
      else if Ascii.eqb c bs then
        match r with
        | EmptyString => None
        | String e r1 =>
            if Ascii.eqb e "u"%char then
              match r1 with
              | String z1 (String z2 (String h1 (String h2 r2))) =>
                  match hex_value h1, hex_value h2 with
                  | Some a, Some b =>
                      if Ascii.eqb z1 "0"%char && Ascii.eqb z2 "0"%char
                      then option_map (prepend (ascii_of_nat (16 * a + b))) (json_unquote r2)
                      else None
                  | _, _ => None
                  end
              | _ => None
              end
            else match unescape_short e with
                 | Some d => option_map (prepend d) (json_unquote r1)
                 | None => None
                 end
        end
      else option_map (prepend c) (json_unquote r)
  end.

Lemma json_unquote_escape (c : ascii) (rest : string) :
  json_unquote (String.append (json_escape_char c) rest) = option_map (prepend c) (json_unquote rest).
Proof.
  destruct c as [[] [] [] [] [] [] [] []]; reflexivity.
Qed.

Lemma json_unquote_quoted (a rest : string) :
  json_unquote (String.append (json_quote_chars a) (String dq rest)) = Some (a, rest).
Proof.
  induction a as [|c a IH]; [reflexivity|].
  change (json_quote_chars (String c a)) with (String.append (json_escape_char c) (json_quote_chars a)).
  rewrite <- string_append_assoc, json_unquote_escape, IH. reflexivity.
Qed.

Lemma string_append_inj_l (p x y : string) :
  String.append p x = String.append p y -> x = y.
Proof.
  induction p as [|c p IH]; [tauto|].
  rewrite !string_append_String. intros H. injection H as H. exact (IH H).
Qed.

(** [JSON.stringify(a) ++ r = JSON.stringify(b) ++ r'] forces [a = b] and
    [r = r']. *)
Lemma JSON_stringify_prefix_inj (a b r r' : string) :
  String.append (JSON_stringify a) r = String.append (JSON_stringify b) r' -> a = b /\ r = r'.
Proof.
  unfold JSON_stringify. rewrite !string_append_String, <- !string_append_assoc,
    !string_append_String, !string_append_Empty.
  intros H. injection H as H. apply (f_equal json_unquote) in H.
  rewrite !json_unquote_quoted in H. injection H as -> ->. split; reflexivity.
Qed.

(** The message of [TargetMustReferToADefinedType] determines the target's
    [target_id] and [type_id]: two targets with the same message agree on
    both. *)
Theorem undefined_type_message_inj (t1 t2 : Target) :
  invariants.undefined_type_message t1 = invariants.undefined_type_message t2 ->
  target_id t1 = target_id t2 /\ type_id t1 = type_id t2.
Proof.
  unfold invariants.undefined_type_message. intros H.
  apply string_append_inj_l in H.
  apply JSON_stringify_prefix_inj in H as [Hid H].
  apply string_append_inj_l in H.
  rewrite <- (string_append_nil (JSON_stringify (type_id t1))),
    <- (string_append_nil (JSON_stringify (type_id t2))) in H.
  apply JSON_stringify_prefix_inj in H as [Hty _].
  split; assumption.
Qed.

Lemma undefined_type_message_inj_witness :
  invariants.undefined_type_message sample_target = invariants.undefined_type_message sample_target
  /\ target_id sample_target = target_id sample_target /\ type_id sample_target = type_id sample_target.
Proof.
  split; [reflexivity|]. apply undefined_type_message_inj. reflexivity.
Defined.
